(** * student-info-app: the fetch / transform / render pipeline

    A shallow embedding of [src/services/apiService.js] (the service object
    [apiService] with its one method [fetchStudents]) and of the script and
    template of [src/pages/StudentsPage.vue], followed by the properties of
    the students listing that the specification states.

    Strings are sequences of 8-bit code units ([string] of the Standard
    Library); [toLowerCase] lowers the letters [A]..[Z] and leaves every
    other unit in place.  Array positions are natural numbers. *)

From Stdlib Require Import ZArith List Bool Ascii String Lia DecimalString.
From Stdlib Require DecimalPos DecimalZ.
Import ListNotations.

Open Scope string_scope.

(** ** The string and array primitives the service calls *)

Module JS.

(** The character class [\d]. *)
Definition is_digit (c : ascii) : bool :=
  let n := nat_of_ascii c in (48 <=? n)%nat && (n <=? 57)%nat.

(** [s.replace(/\D/g, '')]: every unit that is not a digit is dropped. *)
Fixpoint strip_non_digits (s : string) : string :=
  match s with
  | EmptyString => EmptyString
  | String c rest =>
      if is_digit c then String c (strip_non_digits rest)
      else strip_non_digits rest
  end.

Fixpoint take (n : nat) (s : string) : string :=
  match n, s with
  | S k, String c rest => String c (take k rest)
  | _, _ => EmptyString
  end.

Fixpoint drop (n : nat) (s : string) : string :=
  match n, s with
  | S k, String _ rest => drop k rest
  | _, _ => s
  end.

(** [s.slice(start, end)] for the non-negative literal bounds the service
    passes: both bounds are clamped to the length of [s], and the result
    is empty when the clamped start is not below the clamped end. *)
Definition slice (s : string) (start stop : nat) : string :=
  take (stop - start) (drop start s).

Definition lower_unit (c : ascii) : ascii :=
  let n := nat_of_ascii c in
  if (65 <=? n)%nat && (n <=? 90)%nat then ascii_of_nat (n + 32) else c.

(** [s.toLowerCase()]. *)
Fixpoint toLowerCase (s : string) : string :=
  match s with
  | EmptyString => EmptyString
  | String c rest => String (lower_unit c) (toLowerCase rest)
  end.

(** [s.split(sep)] for a separator of one unit.  The result is never the
    empty array: the empty string splits into one empty part. *)
Fixpoint split (sep : ascii) (s : string) : list string :=
  match s with
  | EmptyString => [EmptyString]
  | String c rest =>
      if Ascii.eqb c sep then EmptyString :: split sep rest
      else match split sep rest with
           | part :: parts => String c part :: parts
           | [] => [String c EmptyString]
           end
  end.

(** [arr[arr.length - 1]]: [undefined] on the empty array. *)
Definition last_element {A : Type} (arr : list A) : option A :=
  match List.length arr with
  | O => None
  | S k => nth_error arr k
  end.

(** [x || fallback] where [x] is a string or [undefined]: the empty string
    and [undefined] are the falsy ones. *)
Definition or_else (x : option string) (fallback : string) : string :=
  match x with
  | Some EmptyString => fallback
  | Some s => s
  | None => fallback
  end.

(** [n.toString()] and the interpolation [`${n}`] of an integral number. *)
Definition Number_toString (n : Z) : string :=
  NilZero.string_of_int (Z.to_int n).

(** [arr.map((x, index) => f(x, index))]. *)
Fixpoint map_from {A B : Type} (f : A -> nat -> B) (index : nat) (arr : list A)
  : list B :=
  match arr with
  | [] => []
  | x :: rest => f x index :: map_from f (S index) rest
  end.

Definition map_indexed {A B : Type} (f : A -> nat -> B) (arr : list A) : list B :=
  map_from f 0 arr.

End JS.

(** ** The data model *)

Module RawUser.
Record company : Type := mkCompany { company_name : string }.

Record t : Type := mk {
  id : Z;
  name : string;
  email : string;
  phone : string;
  website : string;
  company_of : company
}.
End RawUser.

Module Student.
Record t : Type := mk {
  id : Z;
  name : string;
  course : string;
  year : string;
  email : string;
  phone : string;
  website : string
}.
End Student.

(** ** [apiService.fetchStudents] *)

Module ApiService.

(** The object the [catch] block receives, read through the three
    properties the block looks at: [error.code], [error.response] (with its
    [status]) and [error.request], each possibly absent.  An error raised
    by the runtime inside the [try] block has none of the three. *)
Record ErrorResponse : Type := mkResponse { status : Z }.

Record RequestError : Type := mkError {
  code : option string;
  response : option ErrorResponse;
  request : bool
}.

(** What [await axiosInstance.get(url)] does: it yields a response whose
    [data] is the array of users, or it throws. *)
Inductive GetOutcome : Type :=
| Resolved (data : list RawUser.t)
| Rejected (error : RequestError).

(** What [fetchStudents] returns: the array of students, or the object
    literal [{ error: true, message: errorMessage }], whose only varying
    part is the message. *)
Inductive Result : Type :=
| StudentsArray (students : list Student.t)
| ErrorObject (message : string).

(** The values a property read on a [Result] can give. *)
Inductive Value : Type :=
| Undefined
| Null
| Boolean (b : bool)
| Text (s : string).

(** [result.error]: an array has no such property. *)
Definition get_error (result : Result) : Value :=
  match result with
  | StudentsArray _ => Undefined
  | ErrorObject _ => Boolean true
  end.

(** [result.message]. *)
Definition get_message (result : Result) : Value :=
  match result with
  | StudentsArray _ => Undefined
  | ErrorObject message => Text message
  end.

(** [Array.isArray(result)]. *)
Definition isArray (result : Result) : bool :=
  match result with
  | StudentsArray _ => true
  | ErrorObject _ => false
  end.

(** The truth value a condition gives to a value. *)
Definition truthy (v : Value) : bool :=
  match v with
  | Undefined | Null => false
  | Boolean b => b
  | Text EmptyString => false
  | Text _ => true
  end.

Definition courses : list string :=
  [ "BS Computer Science";
    "BS Information Technology";
    "BS Business Administration";
    "BS Accountancy";
    "BS Nursing";
    "BS Psychology";
    "BS Civil Engineering";
    "BS Electrical Engineering";
    "BS Architecture";
    "AB Communication" ].

Definition phoneDigits (user : RawUser.t) : string :=
  JS.slice (JS.strip_non_digits (RawUser.phone user)) 0 10.

Definition formattedPhone (user : RawUser.t) : string :=
  let phoneDigits := phoneDigits user in
  "+63 " ++ JS.slice phoneDigits 0 3 ++ " " ++ JS.slice phoneDigits 3 6
         ++ " " ++ JS.slice phoneDigits 6 10.

Definition nameParts (user : RawUser.t) : list string :=
  JS.split " " (JS.toLowerCase (RawUser.name user)).

Definition firstName (user : RawUser.t) : string :=
  JS.or_else (nth_error (nameParts user) 0) "student".

Definition lastName (user : RawUser.t) : string :=
  JS.or_else (JS.last_element (nameParts user)) "user".

Definition studentEmail (user : RawUser.t) : string :=
  firstName user ++ "." ++ lastName user ++ "@student.edu.ph".

Definition phWebsite (user : RawUser.t) : string :=
  firstName user ++ "-" ++ lastName user ++ ".edu.ph".

Definition yearLevel (index : nat) : string :=
  JS.Number_toString (Z.of_nat (index mod 4) + 1).

(** [courses[index % courses.length]]; the index is always in range, the
    empty string stands for the [undefined] of a missing element. *)
Definition courseAt (index : nat) : string :=
  nth (index mod List.length courses) courses "".

(** The callback given to [response.data.map]. *)
Definition toStudent (user : RawUser.t) (index : nat) : Student.t :=
  {| Student.id := RawUser.id user;
     Student.name := RawUser.name user;
     Student.course := courseAt index;
     Student.year := yearLevel index;
     Student.email := studentEmail user;
     Student.phone := formattedPhone user;
     Student.website := phWebsite user |}.

Definition transform (data : list RawUser.t) : list Student.t :=
  JS.map_indexed toStudent data.

(** The [catch] block: the message starts as the generic one and the first
    matching branch of the [if] / [else if] chain replaces it. *)
Definition errorMessage (error : RequestError) : string :=
  if match code error with
     | Some c => String.eqb c "ECONNABORTED"
     | None => false
     end
  then "Request timeout - please try again"
  else match response error with
       | Some r => "Server error: " ++ JS.Number_toString (status r)
       | None =>
           if request error
           then "Network error - please check your connection"
           else "Failed to fetch students"
       end.

Definition fetchStudents (outcome : GetOutcome) : Result :=
  match outcome with
  | Resolved data => StudentsArray (transform data)
  | Rejected error => ErrorObject (errorMessage error)
  end.

End ApiService.

(** ** The students page: its refs, its mount hook and its template *)

Module StudentsPage.
Import ApiService.

Record State : Type := mk {
  students : list Student.t;
  loading : bool;
  error : Value
}.

(** [ref([])], [ref(false)], [ref(null)]. *)
Definition setup : State :=
  {| students := []; loading := false; error := Null |}.

(** How the awaited call ends for the hook: with the value returned, or
    with an exception. *)
Inductive Awaited : Type :=
| Returned (result : Result)
| Threw.

(** The array a returned value is when it is stored in [students]. *)
Definition as_array (result : Result) : list Student.t :=
  match result with
  | StudentsArray items => items
  | ErrorObject _ => []
  end.

(** The hook up to its [await]: the two assignments before the call. *)
Definition onMounted_begin (st : State) : State :=
  {| students := students st; loading := true; error := Null |}.

(** The hook after its [await]: the [try] body or the [catch] block, then
    the [finally] block. *)
Definition onMounted_resume (awaited : Awaited) (st : State) : State :=
  let st' :=
    match awaited with
    | Returned result =>
        if truthy (get_error result)
        then {| students := students st; loading := loading st;
                error := get_message result |}
        else {| students := as_array result; loading := loading st;
                error := error st |}
    | Threw =>
        {| students := students st; loading := loading st;
           error := Text "An unexpected error occurred" |}
    end in
  {| students := students st'; loading := false; error := error st' |}.

(** The three blocks of the template's [v-if] / [v-else-if] / [v-else]
    chain; exactly one of them is in the rendered page. *)
Inductive Block : Type :=
| LoadingBlock
| ErrorBlock (text : string)
| ListBlock (cards : list Student.t).

(** Text interpolation [{{ v }}]. *)
Definition interpolate (v : Value) : string :=
  match v with
  | Undefined | Null => ""
  | Boolean true => "true"
  | Boolean false => "false"
  | Text s => s
  end.

Definition render (st : State) : Block :=
  if loading st then LoadingBlock
  else if truthy (error st) then ErrorBlock (interpolate (error st))
  else ListBlock (students st).

(** The subtitle above the blocks, rendered in every state. *)
Definition subtitle (st : State) : string :=
  JS.Number_toString (Z.of_nat (List.length (students st))) ++ " students found".

(** [wrapper.find('.loading').exists()] and its two siblings. *)
Definition shows_loading (b : Block) : bool :=
  match b with LoadingBlock => true | _ => false end.
Definition shows_error (b : Block) : bool :=
  match b with ErrorBlock _ => true | _ => false end.
Definition shows_list (b : Block) : bool :=
  match b with ListBlock _ => true | _ => false end.

(** The states a mounted page goes through, as the event loop sees them:
    the refs as created, the hook suspended on the fetch, the hook done. *)
Inductive Phase : Type := Created | Pending | Settled.

Inductive step : Phase * State -> Phase * State -> Prop :=
| step_mounted st :
    step (Created, st) (Pending, onMounted_begin st)
| step_fetched outcome st :
    step (Pending, st)
         (Settled, onMounted_resume (Returned (fetchStudents outcome)) st).

Inductive reachable : Phase * State -> Prop :=
| reachable_setup : reachable (Created, setup)
| reachable_step c c' : reachable c -> step c c' -> reachable c'.

(** One whole visit of the page. *)
Definition mounted : State := onMounted_begin setup.
Definition settled (outcome : GetOutcome) : State :=
  onMounted_resume (Returned (fetchStudents outcome)) mounted.

End StudentsPage.

(** ** The specification's own wording

    The specification describes the name rule through the tokens of the
    name and not through the expressions of the service.  [Stated] writes
    that description down as it reads, to be compared with [firstName]
    and [lastName] of the service, and defines the counting words the
    statements about the phone use. *)

Module Stated.



(** The first token lower-cased, or ["student"] if there are no tokens. *)
Definition firstName (tokens : list string) : string :=
  match tokens with
  | [] => "student"
  | token :: _ => JS.toLowerCase token
  end.

(** The last token lower-cased, or ["user"] if there is only one token
    or no token. *)
Definition lastName (tokens : list string) : string :=
  match tokens with
  | [] | [_] => "user"
  | _ :: _ :: _ => JS.toLowerCase (last tokens "")
  end.


(** The number of digit characters of a string. *)
Fixpoint digit_count (s : string) : nat :=
  match s with
  | EmptyString => 0
  | String c rest => (if JS.is_digit c then 1 else 0) + digit_count rest
  end.

(** Every unit of a string is a digit. *)
Fixpoint all_digits (s : string) : bool :=
  match s with
  | EmptyString => true
  | String c rest => JS.is_digit c && all_digits rest
  end.

(** A string without its spaces. *)
Fixpoint without_spaces (s : string) : string :=
  match s with
  | EmptyString => EmptyString
  | String c rest =>
      if Ascii.eqb c " " then without_spaces rest
      else String c (without_spaces rest)
  end.

(** A string has no space. *)
Fixpoint no_space (s : string) : bool :=
  match s with
  | EmptyString => true
  | String c rest => negb (Ascii.eqb c " ") && no_space rest
  end.

End Stated.

(** ** Sample data: the two users of the service's own test *)

Definition leanne : RawUser.t :=
  {| RawUser.id := 1;
     RawUser.name := "Leanne Graham";
     RawUser.email := "Sincere@april.biz";
     RawUser.phone := "1-770-736-8031 x56442";
     RawUser.website := "hildegard.org";
     RawUser.company_of := RawUser.mkCompany "Romaguera-Crona" |}.

Definition ervin : RawUser.t :=
  {| RawUser.id := 2;
     RawUser.name := "Ervin Howell";
     RawUser.email := "Shanna@melissa.tv";
     RawUser.phone := "010-692-6593 x09125";
     RawUser.website := "anastasia.net";
     RawUser.company_of := RawUser.mkCompany "Deckow-Crist" |}.

(** A user with a given name and phone, the other fields fixed. *)
Definition user_with (name phone : string) : RawUser.t :=
  {| RawUser.id := 7;
     RawUser.name := name;
     RawUser.email := "someone@example.org";
     RawUser.phone := phone;
     RawUser.website := "example.org";
     RawUser.company_of := RawUser.mkCompany "Example" |}.

(** The four errors of the service's tests and of the catch-all branch. *)
Definition timeoutError : ApiService.RequestError :=
  {| ApiService.code := Some "ECONNABORTED";
     ApiService.response := None;
     ApiService.request := false |}.

Definition serverError : ApiService.RequestError :=
  {| ApiService.code := None;
     ApiService.response := Some (ApiService.mkResponse 404);
     ApiService.request := false |}.

Definition networkError : ApiService.RequestError :=
  {| ApiService.code := None;
     ApiService.response := None;
     ApiService.request := true |}.

Definition otherError : ApiService.RequestError :=
  {| ApiService.code := None;
     ApiService.response := None;
     ApiService.request := false |}.

(** ** Vocabulary of the statements *)

(** The request was aborted on its timeout. *)
Definition timed_out (error : ApiService.RequestError) : Prop :=
  ApiService.code error = Some "ECONNABORTED".

(** A state the page starts in: one it can be in and that no step leads to. *)
Definition initial_state (c : StudentsPage.Phase * StudentsPage.State) : Prop :=
  StudentsPage.reachable c /\ forall c', ~ StudentsPage.step c' c.

(** The specification's wording of the start of the page: the state the
    page starts in shows the loading indicator. *)
Definition starts_in_loading_state : Prop :=
  forall c, initial_state c ->
            StudentsPage.render (snd c) = StudentsPage.LoadingBlock.

(** Exactly one of three flags is set. *)
Definition exactly_one (a b c : bool) : Prop :=
  (a = true /\ b = false /\ c = false)
  \/ (a = false /\ b = true /\ c = false)
  \/ (a = false /\ b = false /\ c = true).

(** A user under another name, every other field kept. *)
Definition renamed (user : RawUser.t) (name : string) : RawUser.t :=
  {| RawUser.id := RawUser.id user;
     RawUser.name := name;
     RawUser.email := RawUser.email user;
     RawUser.phone := RawUser.phone user;
     RawUser.website := RawUser.website user;
     RawUser.company_of := RawUser.company_of user |}.

(** A string has none of the letters [A]..[Z]. *)
Fixpoint no_upper (s : string) : bool :=
  match s with
  | EmptyString => true
  | String c rest =>
      let n := nat_of_ascii c in
      negb ((65 <=? n)%nat && (n <=? 90)%nat) && no_upper rest
  end.

(** [s.startsWith(prefix)]. *)
Fixpoint starts_with (prefix s : string) : bool :=
  match prefix, s with
  | EmptyString, _ => true
  | String a prefix', String b s' => Ascii.eqb a b && starts_with prefix' s'
  | String _ _, EmptyString => false
  end.

(** ** The home page: [src/pages/HomePage.vue] *)

Module HomePage.

Record State : Type := mk {
  message : string;
  buttonClicked : bool
}.

(** [ref('Welcome to the Student Info App!')] and [ref(false)]. *)
Definition setup : State :=
  {| message := "Welcome to the Student Info App!"; buttonClicked := false |}.

(** The handler of the button's click. *)
Definition handleClick (st : State) : State :=
  {| message := message st; buttonClicked := true |}.

(** The template: the heading, the button and, under [v-if], the
    paragraph of class [clicked-message]. *)
Record View : Type := mkView {
  heading : string;
  button : string;
  clicked_message : option string
}.

Definition render (st : State) : View :=
  {| heading := message st;
     button := "Click Me!";
     clicked_message :=
       if buttonClicked st then Some "Button was clicked!" else None |}.

(** The page after a number of clicks. *)
Definition after_clicks (n : nat) (st : State) : State :=
  Nat.iter n handleClick st.

End HomePage.

(** ** The expandable student card: [src/components/Student.tsx] *)

Module StudentCard.

(** The interface [Student] of the card: the email is optional. *)
Record Student : Type := mkStudent {
  id : Z;
  name : string;
  course : string;
  year : Z;
  email : option string
}.

(** The props: [onExpand] is given or not. *)
Record Props : Type := mkProps {
  student : Student;
  onExpand : bool
}.

(** A mounted card: the state [expanded], and the arguments of the calls
    made to [onExpand] so far, oldest first. *)
Record Instance : Type := mkInstance {
  expanded : bool;
  calls : list Z
}.

(** [useState(false)], and no call made yet. *)
Definition mounted : Instance := {| expanded := false; calls := [] |}.

Definition handleToggleExpand (props : Props) (inst : Instance) : Instance :=
  let newExpanded := negb (expanded inst) in
  {| expanded := newExpanded;
     calls := if onExpand props
              then (calls inst ++ [id (student props)])%list
              else calls inst |}.

(** The sign on the button. *)
Inductive Glyph : Type := Minus | Plus.

(** The block rendered under [expanded &&]. *)
Record Details : Type := mkDetails {
  id_text : string;
  email_row : option string;
  academic_info : string;
  course_full : string
}.

Record View : Type := mkView {
  testid : string;
  name_text : string;
  course_text : string;
  year_text : string;
  button_class : string;
  aria_expanded : bool;
  aria_label : string;
  button_text : Glyph;
  details : option Details
}.

(** [student.email && (...)]: an absent email and the empty one give no
    row. *)
Definition render_email (email : option string) : option string :=
  match email with
  | Some (String c rest) => Some (String c rest)
  | Some EmptyString | None => None
  end.

Definition render (props : Props) (inst : Instance) : View :=
  let student := student props in
  let expanded := expanded inst in
  {| testid := "student-" ++ JS.Number_toString (id student);
     name_text := name student;
     course_text := course student;
     year_text := "Year " ++ JS.Number_toString (year student);
     button_class :=
       "expand-button " ++ (if expanded then "expanded" else "collapsed");
     aria_expanded := expanded;
     aria_label :=
       (if expanded then "Collapse" else "Expand") ++ " details for "
       ++ name student;
     button_text := if expanded then Minus else Plus;
     details :=
       if expanded
       then Some {| id_text := JS.Number_toString (id student);
                    email_row := render_email (email student);
                    academic_info := JS.Number_toString (year student) ++ " of 4";
                    course_full := course student |}
       else None |}.

(** The card after a number of clicks on its button, each click handled
    after the render that follows the click before it. *)
Definition after_toggles (props : Props) (n : nat) : Instance :=
  Nat.iter n (handleToggleExpand props) mounted.

End StudentCard.

(** ** The encoder and decoder installed for the tests when the
    environment has none

    A string is the sequence of its 16-bit code units, a [Uint8Array] the
    sequence of its bytes.  The decoder passes the bytes as the arguments
    of one call, and a call with more arguments than the engine accepts
    raises a [RangeError]; how many it accepts is the engine's matter and
    is a parameter here. *)

Module Polyfill.

(** The conversion of a number stored in a [Uint8Array]. *)
Definition ToUint8 (n : N) : N := (n mod 256)%N.

(** The conversion of an argument of [String.fromCharCode]. *)
Definition ToUint16 (n : N) : N := (n mod 65536)%N.

(** A well-formed string or byte array. *)
Definition is_string (s : list N) : Prop := Forall (fun u => (u < 65536)%N) s.
Definition is_bytes (b : list N) : Prop := Forall (fun u => (u < 256)%N) b.

(** How a call ends: with its value, or with a [RangeError]. *)
Inductive Completion (A : Type) : Type :=
| Normal (value : A)
| RangeError.

Arguments Normal {A} value.
Arguments RangeError {A}.

(** [encode(input = '')]: the code unit at each position, stored in a
    [Uint8Array] of the same length. *)
Definition encode (input : option (list N)) : list N :=
  let input := match input with Some s => s | None => [] end in
  map ToUint8 input.

(** [f(...args)]: the call is made when the engine accepts that many
    arguments. *)
Definition spread_call {A B : Type} (argument_limit : nat)
    (f : list A -> B) (args : list A) : Completion B :=
  if (List.length args <=? argument_limit)%nat then Normal (f args)
  else RangeError.

(** [decode(input)]: [String.fromCharCode] applied to the bytes, all of
    them the arguments of the one call. *)
Definition decode (argument_limit : nat) (input : list N)
  : Completion (list N) :=
  spread_call argument_limit (map ToUint16) input.

End Polyfill.

(** * Properties *)

(** ** Arrays: [map] with the index *)

Section MapIndexed.
Context {A B : Type} (f : A -> nat -> B).

Lemma map_from_length (arr : list A) :
  forall k, List.length (JS.map_from f k arr) = List.length arr.
Proof.
  induction arr as [|x rest IH]; intro k; simpl; [reflexivity|].
  now rewrite IH.
Qed.

Lemma map_from_nth_error (arr : list A) :
  forall k i,
    nth_error (JS.map_from f k arr) i
    = option_map (fun x => f x (k + i)) (nth_error arr i).
Proof.
  induction arr as [|x rest IH]; intros k i.
  - destruct i; reflexivity.
  - destruct i as [|i]; simpl.
    + now rewrite Nat.add_0_r.
    + rewrite IH. now rewrite Nat.add_succ_comm.
Qed.

Lemma map_indexed_nth_error (arr : list A) (i : nat) :
  nth_error (JS.map_indexed f arr) i
  = option_map (fun x => f x i) (nth_error arr i).
Proof. unfold JS.map_indexed. now rewrite map_from_nth_error. Qed.

Lemma map_from_map {C : Type} (g : B -> C) (h : A -> C) (arr : list A) :
  (forall x i, g (f x i) = h x) ->
  forall k, map g (JS.map_from f k arr) = map h arr.
Proof.
  intros Hgh. induction arr as [|x rest IH]; intro k; simpl; [reflexivity|].
  now rewrite Hgh, IH.
Qed.
End MapIndexed.

(** ** The transform on the sample data *)

(** C2: on the two sample users Leanne Graham and Ervin Howell the transform
    yields a first student with course "BS Computer Science", year "1",
    email "leanne.graham@student.edu.ph" and website "leanne-graham.edu.ph",
    and a second student with course "BS Information Technology", year "2",
    email "ervin.howell@student.edu.ph" and website "ervin-howell.edu.ph"
    (the other fields are the ids, the names and the reformatted phones). *)
Theorem transform_sample_users :
  ApiService.fetchStudents (ApiService.Resolved [leanne; ervin])
  = ApiService.StudentsArray
      [ {| Student.id := 1;
           Student.name := "Leanne Graham";
           Student.course := "BS Computer Science";
           Student.year := "1";
           Student.email := "leanne.graham@student.edu.ph";
           Student.phone := "+63 177 073 6803";
           Student.website := "leanne-graham.edu.ph" |};
        {| Student.id := 2;
           Student.name := "Ervin Howell";
           Student.course := "BS Information Technology";
           Student.year := "2";
           Student.email := "ervin.howell@student.edu.ph";
           Student.phone := "+63 010 692 6593";
           Student.website := "ervin-howell.edu.ph" |} ].
Proof. reflexivity. Qed.

(** ** Fields passed through *)

(** C8: the transform passes [id] and [name] through unchanged: the ids of
    the students are the ids of the users, position by position, and so are
    the names, in their original letter case. *)
Theorem transform_keeps_id_and_name (data : list RawUser.t) :
  map Student.id (ApiService.transform data) = map RawUser.id data
  /\ map Student.name (ApiService.transform data) = map RawUser.name data
  /\ forall i user,
       nth_error data i = Some user ->
       exists student,
         nth_error (ApiService.transform data) i = Some student
         /\ Student.id student = RawUser.id user
         /\ Student.name student = RawUser.name user.
Proof.
  unfold ApiService.transform, JS.map_indexed. repeat split.
  - now apply map_from_map.
  - now apply map_from_map.
  - intros i user Hi.
    exists (ApiService.toStudent user i).
    rewrite map_from_nth_error, Hi. now simpl.
Qed.

Lemma transform_keeps_id_and_name_sample :
  exists student,
    nth_error (ApiService.transform [leanne; ervin]) 1 = Some student
    /\ Student.id student = 2%Z
    /\ Student.name student = "Ervin Howell".
Proof.
  destruct (transform_keeps_id_and_name [leanne; ervin]) as (_ & _ & H).
  exact (H 1 ervin eq_refl).
Defined.

(** ** Length, order and locality of the transform *)

(** C5: a successful fetch of [n] users returns an array of exactly [n]
    students in the order of the input: the student at position [i] is the
    callback applied to the user at position [i] and to [i], and to nothing
    else, so two inputs that agree at a position give the same student
    there; the result is a function of the input. *)
Theorem transform_length_order (data : list RawUser.t) :
  ApiService.fetchStudents (ApiService.Resolved data)
  = ApiService.StudentsArray (ApiService.transform data)
  /\ List.length (ApiService.transform data) = List.length data
  /\ (forall i,
        nth_error (ApiService.transform data) i
        = option_map (fun user => ApiService.toStudent user i) (nth_error data i))
  /\ (forall data' i,
        nth_error data' i = nth_error data i ->
        nth_error (ApiService.transform data') i
        = nth_error (ApiService.transform data) i).
Proof.
  repeat split.
  - apply map_from_length.
  - intro i. apply map_indexed_nth_error.
  - intros data' i Hsame.
    unfold ApiService.transform.
    rewrite !map_indexed_nth_error. now rewrite Hsame.
Qed.

Lemma transform_length_order_sample :
  nth_error (ApiService.transform [ervin; leanne]) 1
  = nth_error (ApiService.transform [leanne; leanne]) 1.
Proof.
  destruct (transform_length_order [leanne; leanne]) as (_ & _ & _ & H).
  exact (H [ervin; leanne] 1 eq_refl).
Defined.

(** ** The fields derived from the position *)

Lemma yearLevel_cases (i : nat) :
  In (ApiService.yearLevel i) ["1"; "2"; "3"; "4"].
Proof.
  unfold ApiService.yearLevel.
  assert (Hlt : i mod 4 < 4) by (apply Nat.mod_upper_bound; discriminate).
  destruct (i mod 4) as [|[|[|[|k]]]]; simpl; auto; lia.
Qed.

Lemma courseAt_in_courses (i : nat) :
  In (ApiService.courseAt i) ApiService.courses.
Proof.
  unfold ApiService.courseAt.
  apply nth_In. apply Nat.mod_upper_bound. discriminate.
Qed.

(** C3: at every zero-based position [i] of every input, the student has
    [year] equal to the string form of [(i mod 4) + 1], one of "1", "2",
    "3", "4", and [course] equal to the entry at index [i mod 10] of the
    list of ten courses, hence one of these ten; both are the same for any
    other input that has a position [i], whatever its records hold. *)
Theorem year_and_course_by_position
    (data : list RawUser.t) (i : nat) (student : Student.t) :
  nth_error (ApiService.transform data) i = Some student ->
  Student.year student = JS.Number_toString (Z.of_nat (i mod 4) + 1)
  /\ In (Student.year student) ["1"; "2"; "3"; "4"]
  /\ List.length ApiService.courses = 10
  /\ nth_error ApiService.courses (i mod 10) = Some (Student.course student)
  /\ In (Student.course student) ApiService.courses
  /\ (forall data' student',
        nth_error (ApiService.transform data') i = Some student' ->
        Student.year student' = Student.year student
        /\ Student.course student' = Student.course student).
Proof.
  unfold ApiService.transform. rewrite map_indexed_nth_error.
  destruct (nth_error data i) as [user|]; simpl; [|discriminate].
  intros [= <-]; simpl.
  split; [reflexivity|].
  split; [apply yearLevel_cases|].
  split; [reflexivity|].
  split; [|split].
  - unfold ApiService.courseAt.
    change (List.length ApiService.courses) with 10.
    apply nth_error_nth'.
    change (List.length ApiService.courses) with 10.
    apply Nat.mod_upper_bound. discriminate.
  - apply courseAt_in_courses.
  - intros data' student'. rewrite map_indexed_nth_error.
    destruct (nth_error data' i); simpl; [|discriminate].
    now intros [= <-].
Qed.

Lemma year_and_course_by_position_sample :
  Student.year (ApiService.toStudent ervin 5) = "2"
  /\ nth_error ApiService.courses 5
     = Some (Student.course (ApiService.toStudent ervin 5)).
Proof.
  destruct (year_and_course_by_position
              [leanne; ervin; leanne; ervin; leanne; ervin] 5
              (ApiService.toStudent ervin 5) eq_refl)
    as (Hyear & _ & _ & Hcourse & _).
  split; [exact Hyear | exact Hcourse].
Defined.

(** ** The failed fetch *)

Lemma errorMessage_timeout error :
  timed_out error ->
  ApiService.errorMessage error = "Request timeout - please try again".
Proof.
  unfold timed_out, ApiService.errorMessage. now intros ->.
Qed.

Lemma errorMessage_otherwise error :
  ~ timed_out error ->
  ApiService.errorMessage error
  = match ApiService.response error with
    | Some r => "Server error: " ++ JS.Number_toString (ApiService.status r)
    | None => if ApiService.request error
              then "Network error - please check your connection"
              else "Failed to fetch students"
    end.
Proof.
  unfold timed_out, ApiService.errorMessage.
  destruct (ApiService.code error) as [c|]; [|reflexivity].
  destruct (String.eqb_spec c "ECONNABORTED") as [->|]; [|reflexivity].
  now intros [].
Qed.

(** C1: for every failed fetch, [fetchStudents] returns the failure object
    (its [error] property is [true], its [message] a string) and raises
    nothing.  The message follows the cause, in this order of priority: the
    code ECONNABORTED gives "Request timeout - please try again", whatever
    else the error carries; otherwise a response gives "Server error: "
    followed by its numeric status; otherwise a request without response
    gives "Network error - please check your connection"; otherwise the
    message is "Failed to fetch students". *)
Theorem fetchStudents_failure (error : ApiService.RequestError) :
  exists message,
    ApiService.fetchStudents (ApiService.Rejected error)
    = ApiService.ErrorObject message
    /\ ApiService.get_error (ApiService.fetchStudents (ApiService.Rejected error))
       = ApiService.Boolean true
    /\ ApiService.get_message (ApiService.fetchStudents (ApiService.Rejected error))
       = ApiService.Text message
    /\ (timed_out error ->
        message = "Request timeout - please try again")
    /\ (~ timed_out error ->
        forall r, ApiService.response error = Some r ->
        message = "Server error: " ++ JS.Number_toString (ApiService.status r))
    /\ (~ timed_out error ->
        ApiService.response error = None ->
        ApiService.request error = true ->
        message = "Network error - please check your connection")
    /\ (~ timed_out error ->
        ApiService.response error = None ->
        ApiService.request error = false ->
        message = "Failed to fetch students").
Proof.
  exists (ApiService.errorMessage error); simpl.
  repeat split.
  - apply errorMessage_timeout.
  - intros Hcode r Hr. rewrite (errorMessage_otherwise _ Hcode). now rewrite Hr.
  - intros Hcode Hr Hq. rewrite (errorMessage_otherwise _ Hcode). now rewrite Hr, Hq.
  - intros Hcode Hr Hq. rewrite (errorMessage_otherwise _ Hcode). now rewrite Hr, Hq.
Qed.

Lemma fetchStudents_failure_sample :
  exists message,
    ApiService.fetchStudents (ApiService.Rejected serverError)
    = ApiService.ErrorObject message
    /\ message = "Server error: 404".
Proof.
  destruct (fetchStudents_failure serverError)
    as (message & Hres & _ & _ & _ & Hserver & _).
  exists message. split; [exact Hres|].
  apply (Hserver ltac:(discriminate) (ApiService.mkResponse 404) eq_refl).
Defined.

Example fetchStudents_test_messages :
  ApiService.fetchStudents (ApiService.Rejected timeoutError)
  = ApiService.ErrorObject "Request timeout - please try again"
  /\ ApiService.fetchStudents (ApiService.Rejected serverError)
     = ApiService.ErrorObject "Server error: 404"
  /\ ApiService.fetchStudents (ApiService.Rejected networkError)
     = ApiService.ErrorObject "Network error - please check your connection"
  /\ ApiService.fetchStudents (ApiService.Rejected otherError)
     = ApiService.ErrorObject "Failed to fetch students".
Proof. repeat split. Qed.

(** ** Telling the two outcomes apart *)

Lemma errorMessage_not_empty error :
  ApiService.errorMessage error <> "".
Proof.
  unfold ApiService.errorMessage.
  destruct (match ApiService.code error with
            | Some c => String.eqb c "ECONNABORTED" | None => false end);
    [discriminate|].
  destruct (ApiService.response error); [discriminate|].
  destruct (ApiService.request error); discriminate.
Qed.

(** C9: every value [fetchStudents] returns is told apart by its [error]
    property.  After a successful request the value is an array, whose
    [error] is undefined and so falsy, the empty array included; after a
    failed one it is an object that is not an array, whose [error] is
    [true] and whose [message] is a string that is not empty.  So the
    page's test [if (result.error)] takes the error branch exactly for the
    failed requests, storing the message in the one case and the array in
    the other. *)
Theorem fetchStudents_discriminable (outcome : ApiService.GetOutcome) :
  let result := ApiService.fetchStudents outcome in
  match outcome with
  | ApiService.Resolved data =>
      ApiService.isArray result = true
      /\ ApiService.get_error result = ApiService.Undefined
      /\ ApiService.truthy (ApiService.get_error result) = false
      /\ StudentsPage.settled outcome
         = {| StudentsPage.students := ApiService.transform data;
              StudentsPage.loading := false;
              StudentsPage.error := ApiService.Null |}
  | ApiService.Rejected error =>
      ApiService.isArray result = false
      /\ ApiService.get_error result = ApiService.Boolean true
      /\ ApiService.truthy (ApiService.get_error result) = true
      /\ (exists message,
             ApiService.get_message result = ApiService.Text message
             /\ message <> "")
      /\ StudentsPage.settled outcome
         = {| StudentsPage.students := [];
              StudentsPage.loading := false;
              StudentsPage.error := ApiService.Text (ApiService.errorMessage error) |}
  end
  /\ ApiService.truthy (ApiService.get_error (ApiService.fetchStudents (ApiService.Resolved [])))
     = false.
Proof.
  destruct outcome as [data|error]; simpl; repeat split.
  exists (ApiService.errorMessage error). split; [reflexivity|].
  apply errorMessage_not_empty.
Qed.

(** ** The name rule *)

Lemma lower_unit_space (c : ascii) :
  Ascii.eqb (JS.lower_unit c) " " = Ascii.eqb c " ".
Proof.
  destruct c as [[] [] [] [] [] [] [] []]; reflexivity.
Qed.

Lemma split_not_empty (sep : ascii) (s : string) : JS.split sep s <> [].
Proof.
  destruct s as [|c rest]; simpl; [discriminate|].
  destruct (Ascii.eqb c sep); [discriminate|].
  destruct (JS.split sep rest); discriminate.
Qed.




Lemma split_no_space (s : string) :
  Stated.no_space s = true -> JS.split " " s = [s].
Proof.
  induction s as [|c rest IH]; simpl; [reflexivity|].
  destruct (Ascii.eqb c " "); simpl; [discriminate|].
  intro Hrest. now rewrite (IH Hrest).
Qed.





Example name_rule_edge_cases :
  ApiService.firstName (user_with "" "") = "student"
  /\ ApiService.lastName (user_with "" "") = "user"
  /\ ApiService.firstName (user_with " Leanne Graham" "") = "student"
  /\ ApiService.lastName (user_with "Leanne Graham " "") = "user"
  /\ ApiService.studentEmail (user_with "Mrs. Dennis Schulist" "")
     = "mrs..schulist@student.edu.ph".
Proof. repeat split. Qed.

(** ** Strings: prefixes, suffixes and digits *)

Section Slices.

Lemma take_length (n : nat) :
  forall s, String.length (JS.take n s) = Nat.min n (String.length s).
Proof.
  induction n as [|n IH]; intros [|c s]; simpl; try reflexivity.
  now rewrite IH.
Qed.

Lemma drop_length (n : nat) :
  forall s, String.length (JS.drop n s) = String.length s - n.
Proof.
  induction n as [|n IH]; intros [|c s]; simpl; try reflexivity.
  apply IH.
Qed.

Lemma take_drop (n : nat) :
  forall s, JS.take n s ++ JS.drop n s = s.
Proof.
  induction n as [|n IH]; intros [|c s]; simpl; try reflexivity.
  now rewrite IH.
Qed.

Lemma take_take (a : nat) :
  forall b s, JS.take a (JS.take b s) = JS.take (Nat.min a b) s.
Proof.
  induction a as [|a IH]; intros [|b] [|c s]; simpl; try reflexivity.
  now rewrite IH.
Qed.

Lemma drop_take (a : nat) :
  forall b s, JS.drop a (JS.take b s) = JS.take (b - a) (JS.drop a s).
Proof.
  induction a as [|a IH]; intros [|b] [|c s]; simpl; try reflexivity.
  - now destruct (b - a).
  - apply IH.
Qed.

Lemma drop_drop (a : nat) :
  forall b s, JS.drop a (JS.drop b s) = JS.drop (b + a) s.
Proof.
  intros b. revert a.
  induction b as [|b IH]; intros a s; simpl; [reflexivity|].
  destruct s as [|c s]; [now destruct a|]. apply IH.
Qed.

Lemma take_all (n : nat) :
  forall s, String.length s <= n -> JS.take n s = s.
Proof.
  induction n as [|n IH]; intros [|c s] Hlen; simpl in *; try reflexivity.
  - lia.
  - rewrite IH; [reflexivity|lia].
Qed.

Lemma take_min_length (n : nat) :
  forall s, JS.take (Nat.min (String.length s) n) s = JS.take n s.
Proof.
  induction n as [|n IH]; intros [|c s]; simpl; try reflexivity.
  now rewrite IH.
Qed.

(** [slice] in terms of prefixes and suffixes. *)
Lemma slice_from_zero (s : string) (stop : nat) :
  JS.slice s 0 stop = JS.take stop s.
Proof.
  unfold JS.slice. rewrite Nat.sub_0_r. now destruct s.
Qed.

Lemma slice_of_prefix (s : string) (n start stop : nat) :
  stop <= n ->
  JS.slice (JS.take n s) start stop = JS.slice s start stop.
Proof.
  intro Hle. unfold JS.slice.
  rewrite drop_take, take_take. f_equal. lia.
Qed.

Lemma app_length (s : string) :
  forall t, String.length (s ++ t) = String.length s + String.length t.
Proof. induction s as [|c s IH]; intro t; simpl; [reflexivity|]. now rewrite IH. Qed.

Lemma app_assoc (s : string) :
  forall t u, (s ++ t) ++ u = s ++ t ++ u.
Proof. induction s as [|c s IH]; intros t u; simpl; [reflexivity|]. now rewrite IH. Qed.

End Slices.

Section Digits.

Lemma digit_count_strip (s : string) :
  Stated.digit_count s = String.length (JS.strip_non_digits s).
Proof.
  induction s as [|c s IH]; simpl; [reflexivity|].
  destruct (JS.is_digit c); simpl; now rewrite IH.
Qed.

Lemma strip_all_digits (s : string) :
  Stated.all_digits (JS.strip_non_digits s) = true.
Proof.
  induction s as [|c s IH]; simpl; [reflexivity|].
  destruct (JS.is_digit c) eqn:Hc; simpl; [now rewrite Hc|exact IH].
Qed.


Lemma all_digits_take (n : nat) :
  forall s, Stated.all_digits s = true -> Stated.all_digits (JS.take n s) = true.
Proof.
  induction n as [|n IH]; intros [|c s]; simpl; try reflexivity.
  intros [Hc Hs]%andb_prop. now rewrite Hc, IH.
Qed.

Lemma all_digits_drop (n : nat) :
  forall s, Stated.all_digits s = true -> Stated.all_digits (JS.drop n s) = true.
Proof.
  induction n as [|n IH]; intros [|c s]; simpl; try reflexivity; try easy.
  intros [Hc Hs]%andb_prop. now apply IH.
Qed.

Lemma digit_is_no_space (c : ascii) :
  JS.is_digit c = true -> Ascii.eqb c " " = false.
Proof.
  destruct c as [[] [] [] [] [] [] [] []]; simpl; try reflexivity; discriminate.
Qed.

(** Stripping the non-digits of a string of digits changes nothing, nor
    does removing its spaces. *)
Lemma strip_of_digits (s : string) :
  Stated.all_digits s = true -> JS.strip_non_digits s = s.
Proof.
  induction s as [|c s IH]; simpl; [reflexivity|].
  intros [Hc Hs]%andb_prop. now rewrite Hc, IH.
Qed.

Lemma without_spaces_of_digits (s : string) :
  Stated.all_digits s = true -> Stated.without_spaces s = s.
Proof.
  induction s as [|c s IH]; simpl; [reflexivity|].
  intros [Hc Hs]%andb_prop. now rewrite (digit_is_no_space _ Hc), IH.
Qed.

Lemma strip_app (s t : string) :
  JS.strip_non_digits (s ++ t) = JS.strip_non_digits s ++ JS.strip_non_digits t.
Proof.
  induction s as [|c s IH]; simpl; [reflexivity|].
  destruct (JS.is_digit c); simpl; now rewrite IH.
Qed.

Lemma without_spaces_app (s t : string) :
  Stated.without_spaces (s ++ t)
  = Stated.without_spaces s ++ Stated.without_spaces t.
Proof.
  induction s as [|c s IH]; simpl; [reflexivity|].
  destruct (Ascii.eqb c " "); simpl; now rewrite IH.
Qed.

End Digits.

(** The phone of the service in terms of the digits of the raw phone: the
    three groups are cut from the digits themselves. *)
Lemma formattedPhone_groups (user : RawUser.t) :
  let digits := JS.strip_non_digits (RawUser.phone user) in
  ApiService.formattedPhone user
  = "+63 " ++ JS.take 3 digits ++ " " ++ JS.take 3 (JS.drop 3 digits)
    ++ " " ++ JS.take 4 (JS.drop 6 digits).
Proof.
  intro digits. unfold ApiService.formattedPhone, ApiService.phoneDigits.
  fold digits.
  rewrite (slice_from_zero digits 10).
  rewrite !slice_of_prefix by lia.
  rewrite slice_from_zero. reflexivity.
Qed.

(** ** The phone *)



(** C10: when the raw phone has [d] digit characters with [d] below ten,
    the transform still yields a student, whose phone is "+63 " followed by
    the first [min d 3] digits, a space, the next [min (max (d - 3) 0) 3]
    digits, a space and the digits left.  After the prefix the phone holds
    exactly the [d] digits of the raw phone in their order and two spaces,
    no other digit; with no digit at all it is "+63" and three spaces. *)
Theorem phone_of_few_digits (user : RawUser.t) :
  let digits := JS.strip_non_digits (RawUser.phone user) in
  let d := Stated.digit_count (RawUser.phone user) in
  d < 10 ->
  (forall before after,
      exists students,
        ApiService.fetchStudents (ApiService.Resolved (before ++ user :: after)%list)
        = ApiService.StudentsArray students
        /\ nth_error students (List.length before)
           = Some (ApiService.toStudent user (List.length before)))
  /\ exists g1 g2 g3,
       Student.phone (ApiService.toStudent user 0)
       = "+63 " ++ g1 ++ " " ++ g2 ++ " " ++ g3
       /\ g1 = JS.take (Nat.min d 3) digits
       /\ g2 = JS.take (Nat.min (Nat.max (d - 3) 0) 3) (JS.drop 3 digits)
       /\ g3 = JS.drop 6 digits
       /\ String.length g1 = Nat.min d 3
       /\ String.length g2 = Nat.min (Nat.max (d - 3) 0) 3
       /\ String.length g3 = d - 6
       /\ g1 ++ g2 ++ g3 = digits
       /\ JS.strip_non_digits (g1 ++ " " ++ g2 ++ " " ++ g3) = digits
       /\ Stated.without_spaces (g1 ++ " " ++ g2 ++ " " ++ g3) = digits
       /\ String.length (g1 ++ " " ++ g2 ++ " " ++ g3) = d + 2
       /\ (d = 0 -> Student.phone (ApiService.toStudent user 0) = "+63   ").
Proof.
  intros digits d Hfew.
  assert (Hd : d = String.length digits) by apply digit_count_strip.
  pose proof (strip_all_digits (RawUser.phone user)) as Hdigits. fold digits in Hdigits.
  split.
  - intros before after. eexists. split; [reflexivity|].
    unfold ApiService.transform. rewrite map_indexed_nth_error.
    now rewrite nth_error_app2, Nat.sub_diag by lia.
  - assert (H1 : JS.take 3 digits = JS.take (Nat.min d 3) digits).
    { rewrite Hd. symmetry. apply take_min_length. }
    assert (H2 : JS.take 3 (JS.drop 3 digits)
                 = JS.take (Nat.min (Nat.max (d - 3) 0) 3) (JS.drop 3 digits)).
    { rewrite Nat.max_0_r, Hd, <- (drop_length 3 digits).
      symmetry. apply take_min_length. }
    assert (H3 : JS.take 4 (JS.drop 6 digits) = JS.drop 6 digits).
    { apply take_all. rewrite drop_length. lia. }
    assert (Hcat : JS.take 3 digits ++ JS.take 3 (JS.drop 3 digits) ++ JS.drop 6 digits
                   = digits).
    { rewrite <- (take_drop 3 digits) at 4. f_equal.
      rewrite <- (take_drop 3 (JS.drop 3 digits)) at 2. f_equal.
      now rewrite drop_drop. }
    assert (Hg1 : Stated.all_digits (JS.take 3 digits) = true)
      by now apply all_digits_take.
    assert (Hg2 : Stated.all_digits (JS.take 3 (JS.drop 3 digits)) = true)
      by now apply all_digits_take, all_digits_drop.
    assert (Hg3 : Stated.all_digits (JS.drop 6 digits) = true)
      by now apply all_digits_drop.
    exists (JS.take 3 digits), (JS.take 3 (JS.drop 3 digits)), (JS.drop 6 digits).
    split; [|split; [|split; [|split; [|split; [|split; [|split;
      [|split; [|split; [|split; [|split]]]]]]]]]].
    + simpl. rewrite formattedPhone_groups; cbv zeta. fold digits.
      now rewrite H3.
    + exact H1.
    + exact H2.
    + reflexivity.
    + rewrite take_length. lia.
    + rewrite take_length, drop_length. lia.
    + rewrite drop_length. lia.
    + exact Hcat.
    + rewrite !strip_app. simpl.
      now rewrite !strip_of_digits by assumption.
    + rewrite !without_spaces_app. simpl.
      now rewrite !without_spaces_of_digits by assumption.
    + rewrite !app_length, !take_length, !drop_length.
      change (String.length " ") with 1. lia.
    + intro Hzero. simpl. rewrite formattedPhone_groups; cbv zeta. fold digits.
      destruct digits as [|c rest]; [reflexivity|].
      rewrite Hd in Hzero. discriminate.
Qed.

Lemma phone_of_few_digits_sample :
  Student.phone (ApiService.toStudent (user_with "Ada" "x12-345") 0)
  = "+63 123 45 "
  /\ Student.phone (ApiService.toStudent (user_with "Ada" "none") 0)
     = "+63   ".
Proof.
  split.
  - destruct (phone_of_few_digits (user_with "Ada" "x12-345"))
      as (_ & g1 & g2 & g3 & Hphone & -> & -> & -> & _);
      [vm_compute; repeat constructor | exact Hphone].
  - destruct (phone_of_few_digits (user_with "Ada" "none"))
      as (_ & g1 & g2 & g3 & _ & _ & _ & _ & _ & _ & _ & _ & _ & _ & _ & Hzero);
      [vm_compute; repeat constructor | exact (Hzero eq_refl)].
Defined.

(** ** The states of the students page *)

Lemma reachable_cases (c : StudentsPage.Phase * StudentsPage.State) :
  StudentsPage.reachable c ->
  c = (StudentsPage.Created, StudentsPage.setup)
  \/ c = (StudentsPage.Pending, StudentsPage.mounted)
  \/ exists outcome, c = (StudentsPage.Settled, StudentsPage.settled outcome).
Proof.
  induction 1 as [|c c' Hreach IH Hstep]; [now left|].
  destruct Hstep as [st|outcome st].
  - destruct IH as [[= ->]|[[=]|[outcome [=]]]]. right; now left.
  - destruct IH as [[=]|[[= ->]|[outcome' [=]]]]. right; right; now exists outcome.
Qed.

Lemma settled_cases (outcome : ApiService.GetOutcome) :
  (exists data,
      outcome = ApiService.Resolved data
      /\ StudentsPage.settled outcome
         = {| StudentsPage.students := ApiService.transform data;
              StudentsPage.loading := false;
              StudentsPage.error := ApiService.Null |})
  \/ (exists error,
         outcome = ApiService.Rejected error
         /\ StudentsPage.settled outcome
            = {| StudentsPage.students := [];
                 StudentsPage.loading := false;
                 StudentsPage.error := ApiService.Text (ApiService.errorMessage error) |}).
Proof.
  destruct outcome as [data|error]; [left; now exists data|right; now exists error].
Qed.

Lemma truthy_text (s : string) :
  s <> "" -> ApiService.truthy (ApiService.Text s) = true.
Proof. destruct s; [now intros []|reflexivity]. Qed.

Lemma setup_is_initial :
  initial_state (StudentsPage.Created, StudentsPage.setup)
  /\ forall c, initial_state c -> c = (StudentsPage.Created, StudentsPage.setup).
Proof.
  split.
  - split; [apply StudentsPage.reachable_setup|].
    intros c' Hstep. inversion Hstep.
  - intros c [Hreach Hfirst].
    destruct (reachable_cases _ Hreach) as [->|[->|[outcome ->]]];
      [reflexivity| |].
    + destruct (Hfirst (StudentsPage.Created, StudentsPage.setup)).
      apply StudentsPage.step_mounted.
    + destruct (Hfirst (StudentsPage.Pending, StudentsPage.mounted)).
      apply StudentsPage.step_fetched.
Qed.

(** C7, as the code has it: the page starts from the refs as created, not
    loading, with no error and no students, which render the empty list
    container.  The mount hook takes the page into the loading state before
    it awaits the one fetch it issues, this is the only way on from the
    refs as created, and while that fetch is pending the page shows the
    loading indicator only; a settled page moves no further.  When the
    fetch gives the empty list the page shows an empty list container,
    neither loading nor error; when it gives a failure the page shows the
    error block only, with the message as it is.  In every state the page
    can reach exactly one of the loading indicator, the error block and the
    list is shown, and at most one of the three refs is set: a loading page
    holds neither error nor students, a page with an error is not loading
    and holds no students, a page with students is not loading and holds
    no error. *)
Theorem page_state_machine :
  initial_state (StudentsPage.Created, StudentsPage.setup)
  /\ (forall c, initial_state c -> c = (StudentsPage.Created, StudentsPage.setup))
  /\ StudentsPage.render StudentsPage.setup = StudentsPage.ListBlock []
  /\ StudentsPage.step (StudentsPage.Created, StudentsPage.setup)
                       (StudentsPage.Pending, StudentsPage.mounted)
  /\ (forall c, StudentsPage.step (StudentsPage.Created, StudentsPage.setup) c ->
                c = (StudentsPage.Pending, StudentsPage.mounted))
  /\ (forall st c, ~ StudentsPage.step (StudentsPage.Settled, st) c)
  /\ StudentsPage.render StudentsPage.mounted = StudentsPage.LoadingBlock
  /\ StudentsPage.render (StudentsPage.settled (ApiService.Resolved []))
     = StudentsPage.ListBlock []
  /\ (forall error,
        StudentsPage.render (StudentsPage.settled (ApiService.Rejected error))
        = StudentsPage.ErrorBlock (ApiService.errorMessage error))
  /\ (forall c message,
        StudentsPage.render
          (StudentsPage.onMounted_resume
             (StudentsPage.Returned (ApiService.ErrorObject (String c message)))
             StudentsPage.mounted)
        = StudentsPage.ErrorBlock (String c message))
  /\ (forall phase st,
        StudentsPage.reachable (phase, st) ->
        exactly_one (StudentsPage.shows_loading (StudentsPage.render st))
                    (StudentsPage.shows_error (StudentsPage.render st))
                    (StudentsPage.shows_list (StudentsPage.render st))
        /\ (phase = StudentsPage.Pending <->
            StudentsPage.render st = StudentsPage.LoadingBlock)
        /\ (StudentsPage.loading st = true ->
            StudentsPage.error st = ApiService.Null
            /\ StudentsPage.students st = [])
        /\ (ApiService.truthy (StudentsPage.error st) = true ->
            StudentsPage.loading st = false
            /\ StudentsPage.students st = []
            /\ StudentsPage.render st
               = StudentsPage.ErrorBlock (StudentsPage.interpolate (StudentsPage.error st)))
        /\ (StudentsPage.students st <> [] ->
            StudentsPage.loading st = false
            /\ StudentsPage.error st = ApiService.Null
            /\ StudentsPage.render st = StudentsPage.ListBlock (StudentsPage.students st))
        /\ match phase with
           | StudentsPage.Created => st = StudentsPage.setup
           | StudentsPage.Pending => st = StudentsPage.mounted
           | StudentsPage.Settled =>
               exists outcome, st = StudentsPage.settled outcome
           end).
Proof.
  assert (Herr : forall error,
             StudentsPage.render (StudentsPage.settled (ApiService.Rejected error))
             = StudentsPage.ErrorBlock (ApiService.errorMessage error)).
  { intro error.
    change (StudentsPage.render (StudentsPage.settled (ApiService.Rejected error)))
      with (if ApiService.truthy (ApiService.Text (ApiService.errorMessage error))
            then StudentsPage.ErrorBlock (ApiService.errorMessage error)
            else StudentsPage.ListBlock []).
    now rewrite (truthy_text _ (errorMessage_not_empty error)). }
  split; [apply setup_is_initial|].
  split; [apply setup_is_initial|].
  split; [reflexivity|].
  split; [apply StudentsPage.step_mounted|].
  split; [intros c Hstep; now inversion Hstep|].
  split; [intros st c Hstep; inversion Hstep|].
  split; [reflexivity|].
  split; [reflexivity|].
  split; [exact Herr|].
  split; [reflexivity|].
  intros phase st Hreach.
  destruct (reachable_cases _ Hreach) as [[= -> ->]|[[= -> ->]|[outcome [= -> ->]]]].
  - (* the refs as created *)
    split; [right; right; now repeat split|].
    split; [split; discriminate|].
    split; [discriminate|]. split; [discriminate|].
    split; [now intros []|reflexivity].
  - (* the fetch is pending *)
    split; [left; now repeat split|].
    split; [now split|].
    split; [now split|]. split; [discriminate|].
    split; [now intros []|reflexivity].
  - (* the fetch is over *)
    destruct (settled_cases outcome)
      as [(data & -> & Hst)|(error & -> & Hst)].
    + rewrite Hst.
      split; [right; right; now repeat split|].
      split; [split; discriminate|].
      split; [discriminate|]. split; [discriminate|].
      split; [now intros _|].
      exists (ApiService.Resolved data). now rewrite Hst.
    + pose proof (Herr error) as Hrender.
      rewrite Hst in Hrender. rewrite Hst, Hrender.
      split; [right; left; now repeat split|].
      split; [split; discriminate|].
      split; [discriminate|].
      split; [intros _; now repeat split|].
      split; [now intros []|].
      exists (ApiService.Rejected error). now rewrite Hst.
Qed.

Lemma page_state_machine_sample :
  exactly_one
    (StudentsPage.shows_loading
       (StudentsPage.render (StudentsPage.settled (ApiService.Rejected networkError))))
    (StudentsPage.shows_error
       (StudentsPage.render (StudentsPage.settled (ApiService.Rejected networkError))))
    (StudentsPage.shows_list
       (StudentsPage.render (StudentsPage.settled (ApiService.Rejected networkError)))).
Proof.
  destruct page_state_machine
    as (_ & _ & _ & Hstep & _ & _ & _ & _ & _ & _ & Hall).
  refine (proj1 (Hall StudentsPage.Settled
                      (StudentsPage.settled (ApiService.Rejected networkError)) _)).
  eapply StudentsPage.reachable_step;
    [eapply StudentsPage.reachable_step;
       [apply StudentsPage.reachable_setup | exact Hstep]
    | apply (StudentsPage.step_fetched (ApiService.Rejected networkError))].
Defined.

(** C7, as the specification words it, fails at the start of the page: the
    state the page starts in is the one of the refs as created, with
    [loading] false, and it renders the empty list, not the loading
    indicator. *)
Lemma page_does_not_start_loading :
  initial_state (StudentsPage.Created, StudentsPage.setup)
  /\ StudentsPage.loading StudentsPage.setup = false
  /\ StudentsPage.render StudentsPage.setup = StudentsPage.ListBlock []
  /\ ~ starts_in_loading_state.
Proof.
  split; [apply setup_is_initial|]. split; [reflexivity|]. split; [reflexivity|].
  intro Hstarts.
  specialize (Hstarts _ (proj1 setup_is_initial)). discriminate.
Qed.

(** Before the hook has run, the refs as created render the empty list. *)
Example created_refs_render :
  StudentsPage.render StudentsPage.setup = StudentsPage.ListBlock []
  /\ StudentsPage.subtitle StudentsPage.setup = "0 students found".
Proof. split; reflexivity. Qed.


(** * Further properties of the service *)

(** ** The phone, whatever the raw phone holds *)

Lemma take_plus (a b : nat) :
  forall s, JS.take (a + b) s = JS.take a s ++ JS.take b (JS.drop a s).
Proof.
  induction a as [|a IH]; intros [|c s]; simpl; try reflexivity.
  - now destruct b.
  - now rewrite IH.
Qed.

(** X1: for every raw phone the phone of the student is "+63 " and three groups
    separated by single spaces; the groups hold digits only, they are the
    first ten digits of the raw phone cut after the third and the sixth,
    and every later digit is dropped.  So the phone has between six and
    sixteen characters. *)
Theorem phone_shape (user : RawUser.t) :
  let digits := JS.strip_non_digits (RawUser.phone user) in
  let d := Stated.digit_count (RawUser.phone user) in
  exists g1 g2 g3,
    ApiService.formattedPhone user = "+63 " ++ g1 ++ " " ++ g2 ++ " " ++ g3
    /\ g1 ++ g2 ++ g3 = JS.take 10 digits
    /\ Stated.all_digits g1 = true
    /\ Stated.all_digits g2 = true
    /\ Stated.all_digits g3 = true
    /\ String.length g1 = Nat.min 3 d
    /\ String.length g2 = Nat.min 3 (d - 3)
    /\ String.length g3 = Nat.min 4 (d - 6)
    /\ String.length (ApiService.formattedPhone user) = 6 + Nat.min 10 d
    /\ 6 <= String.length (ApiService.formattedPhone user) <= 16.
Proof.
  intros digits d.
  assert (Hd : d = String.length digits) by apply digit_count_strip.
  pose proof (strip_all_digits (RawUser.phone user)) as Hdigits.
  fold digits in Hdigits.
  pose proof (formattedPhone_groups user) as Hphone.
  cbv zeta in Hphone. fold digits in Hphone.
  assert (Hlen : String.length (ApiService.formattedPhone user) = 6 + Nat.min 10 d).
  { rewrite Hphone, !app_length, !take_length, !drop_length.
    change (String.length "+63 ") with 4. change (String.length " ") with 1. lia. }
  exists (JS.take 3 digits), (JS.take 3 (JS.drop 3 digits)),
         (JS.take 4 (JS.drop 6 digits)).
  split; [exact Hphone|].
  split.
  { change 10 with (3 + (3 + 4)). rewrite take_plus. f_equal.
    rewrite take_plus. f_equal. now rewrite drop_drop. }
  split; [now apply all_digits_take|].
  split; [now apply all_digits_take, all_digits_drop|].
  split; [now apply all_digits_take, all_digits_drop|].
  split; [rewrite take_length; lia|].
  split; [rewrite take_length, drop_length; lia|].
  split; [rewrite take_length, drop_length; lia|].
  split; [exact Hlen|lia].
Qed.

(** ** The names the service derives *)

Lemma no_space_app (s t : string) :
  Stated.no_space (s ++ t) = Stated.no_space s && Stated.no_space t.
Proof.
  induction s as [|c s IH]; simpl; [reflexivity|].
  now rewrite IH, andb_assoc.
Qed.

Lemma no_upper_app (s t : string) :
  no_upper (s ++ t) = no_upper s && no_upper t.
Proof.
  induction s as [|c s IH]; simpl; [reflexivity|].
  now rewrite IH, andb_assoc.
Qed.

Lemma lower_unit_not_upper (c : ascii) :
  let n := nat_of_ascii (JS.lower_unit c) in
  (65 <=? n)%nat && (n <=? 90)%nat = false.
Proof.
  destruct c as [[] [] [] [] [] [] [] []]; reflexivity.
Qed.

Lemma toLowerCase_no_upper (s : string) :
  no_upper (JS.toLowerCase s) = true.
Proof.
  induction s as [|c s IH]; [reflexivity|].
  cbn [JS.toLowerCase no_upper]; cbv zeta.
  pose proof (lower_unit_not_upper c) as Hc. cbv zeta in Hc.
  now rewrite Hc, IH.
Qed.

Lemma toLowerCase_app (s t : string) :
  JS.toLowerCase (s ++ t) = JS.toLowerCase s ++ JS.toLowerCase t.
Proof.
  induction s as [|c s IH]; simpl; [reflexivity|]. now rewrite IH.
Qed.

Lemma toLowerCase_no_space (s : string) :
  Stated.no_space (JS.toLowerCase s) = Stated.no_space s.
Proof.
  induction s as [|c s IH]; simpl; [reflexivity|].
  now rewrite lower_unit_space, IH.
Qed.

(** The parts that splitting on spaces gives hold no space, and they hold
    no upper-case letter when the string holds none. *)
Lemma split_parts (s : string) :
  Forall (fun part => Stated.no_space part = true) (JS.split " " s)
  /\ (no_upper s = true ->
      Forall (fun part => no_upper part = true) (JS.split " " s)).
Proof.
  induction s as [|c s [IHspace IHupper]]; simpl.
  - split; [|intros _]; now repeat constructor.
  - destruct (Ascii.eqb c " ") eqn:Hc.
    + split; [now constructor|].
      intros [_ Hs]%andb_prop. constructor; [reflexivity|now apply IHupper].
    + destruct (JS.split " " s) as [|part parts].
      * split; [|intros Hup]; repeat constructor; simpl.
        -- now rewrite Hc.
        -- apply andb_prop in Hup as [-> _]. reflexivity.
      * split.
        -- inversion IHspace as [|? ? Hpart Hparts]; subst.
           constructor; [simpl; now rewrite Hc, Hpart|assumption].
        -- intros [Hcu Hs]%andb_prop. specialize (IHupper Hs).
           inversion IHupper as [|? ? Hpart Hparts]; subst.
           constructor; [simpl; now rewrite Hcu, Hpart|assumption].
Qed.

Lemma or_else_keeps (P : string -> Prop) (x : option string) (fallback : string) :
  P fallback -> fallback <> "" ->
  (forall s, x = Some s -> P s) ->
  P (JS.or_else x fallback) /\ JS.or_else x fallback <> "".
Proof.
  intros Hfb Hne Hx.
  destruct x as [[|c s]|]; simpl; auto.
  split; [now apply Hx|discriminate].
Qed.

Lemma nameParts_clean (user : RawUser.t) :
  Forall (fun part => Stated.no_space part = true /\ no_upper part = true)
         (ApiService.nameParts user).
Proof.
  unfold ApiService.nameParts.
  destruct (split_parts (JS.toLowerCase (RawUser.name user))) as [Hspace Hupper].
  specialize (Hupper (toLowerCase_no_upper _)).
  rewrite Forall_forall in *. intros part Hin. split; auto.
Qed.

(** X2: for every name, empty or with spaces anywhere, the first and the last
    name the service derives are not empty and hold neither a space nor an
    upper-case letter; so neither do the email and the website. *)
Theorem derived_names_clean (user : RawUser.t) :
  ApiService.firstName user <> ""
  /\ ApiService.lastName user <> ""
  /\ Stated.no_space (ApiService.firstName user) = true
  /\ Stated.no_space (ApiService.lastName user) = true
  /\ no_upper (ApiService.firstName user) = true
  /\ no_upper (ApiService.lastName user) = true
  /\ Stated.no_space (ApiService.studentEmail user) = true
  /\ no_upper (ApiService.studentEmail user) = true
  /\ Stated.no_space (ApiService.phWebsite user) = true
  /\ no_upper (ApiService.phWebsite user) = true.
Proof.
  pose proof (nameParts_clean user) as Hparts.
  rewrite Forall_forall in Hparts.
  assert (Hfirst : (Stated.no_space (ApiService.firstName user) = true
                    /\ no_upper (ApiService.firstName user) = true)
                   /\ ApiService.firstName user <> "").
  { unfold ApiService.firstName.
    apply (or_else_keeps
             (fun s => Stated.no_space s = true /\ no_upper s = true));
      [now split|discriminate|].
    intros s Hs. apply Hparts. now apply (nth_error_In _ 0). }
  assert (Hlast : (Stated.no_space (ApiService.lastName user) = true
                   /\ no_upper (ApiService.lastName user) = true)
                  /\ ApiService.lastName user <> "").
  { unfold ApiService.lastName.
    apply (or_else_keeps
             (fun s => Stated.no_space s = true /\ no_upper s = true));
      [now split|discriminate|].
    intros s Hs. apply Hparts. unfold JS.last_element in Hs.
    destruct (List.length (ApiService.nameParts user)); [discriminate|].
    now apply nth_error_In in Hs. }
  destruct Hfirst as [[Hfs Hfu] Hfne], Hlast as [[Hls Hlu] Hlne].
  unfold ApiService.studentEmail, ApiService.phWebsite.
  rewrite !no_space_app, !no_upper_app, Hfs, Hls, Hfu, Hlu.
  repeat split; assumption.
Qed.

(** ** Names that give the same email *)

(** Splitting a string that holds the separator: the parts before it,
    then the parts after it. *)
Lemma split_app (sep : ascii) (s t : string) :
  JS.split sep (s ++ String sep t) = (JS.split sep s ++ JS.split sep t)%list.
Proof.
  induction s as [|c s IH]; simpl.
  - now rewrite Ascii.eqb_refl.
  - destruct (Ascii.eqb c sep); [now rewrite IH|].
    rewrite IH.
    destruct (JS.split sep s) as [|part parts] eqn:Hs; [|reflexivity].
    now destruct (split_not_empty sep s).
Qed.

Lemma nameParts_three (user : RawUser.t) (first middle last : string) :
  Stated.no_space first = true ->
  Stated.no_space last = true ->
  ApiService.nameParts (renamed user (first ++ " " ++ middle ++ " " ++ last))
  = (JS.toLowerCase first :: JS.split " " (JS.toLowerCase middle)
       ++ [JS.toLowerCase last])%list.
Proof.
  intros Hfirst Hlast. unfold ApiService.nameParts; simpl.
  rewrite toLowerCase_app; simpl. rewrite toLowerCase_app; simpl.
  change (JS.lower_unit " ") with " "%char.
  rewrite !split_app.
  rewrite (split_no_space (JS.toLowerCase first))
    by now rewrite toLowerCase_no_space.
  rewrite (split_no_space (JS.toLowerCase last))
    by now rewrite toLowerCase_no_space.
  reflexivity.
Qed.

Lemma last_element_app {A : Type} (arr : list A) (x : A) :
  JS.last_element (arr ++ [x])%list = Some x.
Proof.
  unfold JS.last_element. rewrite length_app, Nat.add_comm; simpl.
  rewrite nth_error_app2, Nat.sub_diag by lia. reflexivity.
Qed.

(** X3: whatever stands between the first and the last space of a name is
    ignored: a name with a first part, anything in the middle and a last
    part gives the first name, last name, email and website of the name
    made of the first and the last part alone. *)
Theorem middle_of_name_ignored
    (user : RawUser.t) (first middle last : string) :
  Stated.no_space first = true ->
  Stated.no_space last = true ->
  let long := renamed user (first ++ " " ++ middle ++ " " ++ last) in
  let short := renamed user (first ++ " " ++ last) in
  ApiService.firstName long = ApiService.firstName short
  /\ ApiService.lastName long = ApiService.lastName short
  /\ ApiService.studentEmail long = ApiService.studentEmail short
  /\ ApiService.phWebsite long = ApiService.phWebsite short.
Proof.
  intros Hfirst Hlast long short.
  assert (Hlong : ApiService.nameParts long
                  = (JS.toLowerCase first :: JS.split " " (JS.toLowerCase middle)
                       ++ [JS.toLowerCase last])%list)
    by now apply nameParts_three.
  assert (Hshort : ApiService.nameParts short
                   = [JS.toLowerCase first; JS.toLowerCase last]).
  { unfold short, ApiService.nameParts; simpl.
    rewrite toLowerCase_app; simpl.
    change (JS.lower_unit " ") with " "%char.
    rewrite split_app.
    now rewrite !split_no_space by now rewrite toLowerCase_no_space. }
  assert (Hf : ApiService.firstName long = ApiService.firstName short).
  { unfold ApiService.firstName. now rewrite Hlong, Hshort. }
  assert (Hl : ApiService.lastName long = ApiService.lastName short).
  { unfold ApiService.lastName. rewrite Hlong, Hshort.
    rewrite app_comm_cons, last_element_app. reflexivity. }
  unfold ApiService.studentEmail, ApiService.phWebsite.
  rewrite Hf, Hl. now repeat split.
Qed.

Lemma middle_of_name_ignored_sample :
  ApiService.studentEmail (renamed leanne "Ana Maria Luisa Cruz")
  = ApiService.studentEmail (renamed leanne "Ana Cruz").
Proof.
  exact (proj1 (proj2 (proj2
           (middle_of_name_ignored leanne "Ana" "Maria Luisa" "Cruz"
              eq_refl eq_refl)))).
Defined.

(** ** How course and year repeat along the list *)

Lemma courses_NoDup : NoDup ApiService.courses.
Proof.
  unfold ApiService.courses.
  repeat (constructor; [simpl; intuition discriminate|]). constructor.
Qed.

Lemma Number_toString_inj (n m : Z) :
  JS.Number_toString n = JS.Number_toString m -> n = m.
Proof.
  unfold JS.Number_toString. intro Heq.
  assert (Hnorm : forall z, NilZero.int_of_string (NilZero.string_of_int (Z.to_int z))
                            = Some (Z.to_int z)).
  { intro z. apply NilZero.isi; destruct z as [|p|p]; simpl; try discriminate.
    - intros [= Hp]. now apply (DecimalPos.Unsigned.to_uint_nonnil p).
    - intros [= Hp]. now apply (DecimalPos.Unsigned.to_uint_nonnil p). }
  apply DecimalZ.to_int_inj.
  assert (Hsome : Some (Z.to_int n) = Some (Z.to_int m))
    by now rewrite <- !Hnorm, Heq.
  now injection Hsome.
Qed.

Lemma courseAt_same (i j : nat) :
  ApiService.courseAt i = ApiService.courseAt j <-> i mod 10 = j mod 10.
Proof.
  unfold ApiService.courseAt.
  change (List.length ApiService.courses) with 10.
  split; [|now intros ->].
  apply (proj1 (NoDup_nth ApiService.courses "") courses_NoDup);
    change (List.length ApiService.courses) with 10;
    apply Nat.mod_upper_bound; discriminate.
Qed.

Lemma yearLevel_same (i j : nat) :
  ApiService.yearLevel i = ApiService.yearLevel j <-> i mod 4 = j mod 4.
Proof.
  unfold ApiService.yearLevel. split; [|now intros ->].
  intros Heq%Number_toString_inj. lia.
Qed.

(** X4: two positions carry the same course exactly when they agree modulo
    ten, the same year exactly when they agree modulo four, and so the same
    course and year exactly when they agree modulo twenty. *)
Theorem course_and_year_periods (i j : nat) :
  (ApiService.courseAt i = ApiService.courseAt j <-> i mod 10 = j mod 10)
  /\ (ApiService.yearLevel i = ApiService.yearLevel j <-> i mod 4 = j mod 4)
  /\ (ApiService.courseAt i = ApiService.courseAt j
      /\ ApiService.yearLevel i = ApiService.yearLevel j
      <-> i mod 20 = j mod 20).
Proof.
  split; [apply courseAt_same|]. split; [apply yearLevel_same|].
  rewrite courseAt_same, yearLevel_same.
  pose proof (Nat.div_mod_eq i 10). pose proof (Nat.div_mod_eq j 10).
  pose proof (Nat.div_mod_eq i 4). pose proof (Nat.div_mod_eq j 4).
  pose proof (Nat.div_mod_eq i 20). pose proof (Nat.div_mod_eq j 20).
  pose proof (Nat.mod_upper_bound i 10). pose proof (Nat.mod_upper_bound j 10).
  pose proof (Nat.mod_upper_bound i 4). pose proof (Nat.mod_upper_bound j 4).
  pose proof (Nat.mod_upper_bound i 20). pose proof (Nat.mod_upper_bound j 20).
  lia.
Qed.

(** ** The transform and the position of a user *)

Lemma map_from_app {A B : Type} (f : A -> nat -> B) (a b : list A) :
  forall k,
    JS.map_from f k (a ++ b)%list
    = (JS.map_from f k a ++ JS.map_from f (k + List.length a) b)%list.
Proof.
  induction a as [|x a IH]; intro k; simpl.
  - now rewrite Nat.add_0_r.
  - now rewrite IH, Nat.add_succ_comm.
Qed.

(** X5: users appended to the response never change the students before them:
    the transform of a longer response starts with the transform of the
    shorter one, and the appended users are transformed at the positions
    that follow. *)
Theorem transform_app (data extra : list RawUser.t) :
  ApiService.transform (data ++ extra)%list
  = (ApiService.transform data
       ++ JS.map_from ApiService.toStudent (List.length data) extra)%list
  /\ firstn (List.length data) (ApiService.transform (data ++ extra)%list)
     = ApiService.transform data.
Proof.
  assert (Happ : ApiService.transform (data ++ extra)%list
                 = (ApiService.transform data
                      ++ JS.map_from ApiService.toStudent (List.length data) extra)%list)
    by apply (map_from_app ApiService.toStudent data extra 0).
  split; [exact Happ|].
  rewrite Happ.
  rewrite <- (map_from_length ApiService.toStudent data 0) at 1.
  fold (JS.map_indexed ApiService.toStudent data).
  fold (ApiService.transform data).
  rewrite firstn_app, Nat.sub_diag, firstn_all. simpl.
  now rewrite app_nil_r.
Qed.

(** X6: a user inserted in front of the response moves every other user one
    position down: such a user keeps id, name, email, phone and website,
    and gets another course and another year. *)
Theorem insertion_changes_course_and_year
    (first : RawUser.t) (data : list RawUser.t) (i : nat)
    (before after : Student.t) :
  nth_error (ApiService.transform data) i = Some before ->
  nth_error (ApiService.transform (first :: data)) (S i) = Some after ->
  Student.id after = Student.id before
  /\ Student.name after = Student.name before
  /\ Student.email after = Student.email before
  /\ Student.phone after = Student.phone before
  /\ Student.website after = Student.website before
  /\ Student.course after <> Student.course before
  /\ Student.year after <> Student.year before.
Proof.
  unfold ApiService.transform. rewrite !map_indexed_nth_error. simpl.
  destruct (nth_error data i) as [user|]; simpl; [|discriminate].
  intros [= <-] [= <-]; simpl.
  repeat split.
  - intro Hsame.
    apply courseAt_same in Hsame.
    pose proof (Nat.div_mod_eq i 10). pose proof (Nat.div_mod_eq (S i) 10).
    pose proof (Nat.mod_upper_bound i 10). pose proof (Nat.mod_upper_bound (S i) 10).
    lia.
  - intro Hsame.
    apply yearLevel_same in Hsame.
    pose proof (Nat.div_mod_eq i 4). pose proof (Nat.div_mod_eq (S i) 4).
    pose proof (Nat.mod_upper_bound i 4). pose proof (Nat.mod_upper_bound (S i) 4).
    lia.
Qed.

Lemma insertion_changes_course_and_year_sample :
  Student.course (ApiService.toStudent ervin 1)
  <> Student.course (ApiService.toStudent ervin 0).
Proof.
  destruct (insertion_changes_course_and_year leanne [ervin] 0
              (ApiService.toStudent ervin 0) (ApiService.toStudent ervin 1)
              eq_refl eq_refl)
    as (_ & _ & _ & _ & _ & Hcourse & _).
  exact Hcourse.
Defined.

(** ** Reading the cause back from the message *)

Lemma timed_out_dec (error : ApiService.RequestError) :
  {timed_out error} + {~ timed_out error}.
Proof.
  unfold timed_out.
  destruct (ApiService.code error) as [c|]; [|right; discriminate].
  destruct (string_dec c "ECONNABORTED") as [->|Hne]; [now left|right].
  now intros [= ->].
Qed.

(** X7: the message tells the four causes apart: each of the three fixed
    messages is returned for its cause only, a message starting with
    "Server error: " for an error with a response only, and two such
    messages are equal only for equal statuses. *)
Theorem message_identifies_cause (error : ApiService.RequestError) :
  (ApiService.errorMessage error = "Request timeout - please try again"
   <-> timed_out error)
  /\ (starts_with "Server error: " (ApiService.errorMessage error) = true
      <-> ~ timed_out error /\ ApiService.response error <> None)
  /\ (ApiService.errorMessage error = "Network error - please check your connection"
      <-> ~ timed_out error /\ ApiService.response error = None
          /\ ApiService.request error = true)
  /\ (ApiService.errorMessage error = "Failed to fetch students"
      <-> ~ timed_out error /\ ApiService.response error = None
          /\ ApiService.request error = false)
  /\ (forall error' r r',
        ~ timed_out error -> ~ timed_out error' ->
        ApiService.response error = Some r ->
        ApiService.response error' = Some r' ->
        ApiService.errorMessage error = ApiService.errorMessage error' ->
        ApiService.status r = ApiService.status r').
Proof.
  assert (Hstatus : forall error' r r',
             ~ timed_out error -> ~ timed_out error' ->
             ApiService.response error = Some r ->
             ApiService.response error' = Some r' ->
             ApiService.errorMessage error = ApiService.errorMessage error' ->
             ApiService.status r = ApiService.status r').
  { intros error' r r' Hto Hto' Hresp Hresp'.
    rewrite (errorMessage_otherwise _ Hto), (errorMessage_otherwise _ Hto').
    rewrite Hresp, Hresp'.
    intros [= Heq]. now apply Number_toString_inj. }
  destruct (timed_out_dec error) as [Hto|Hto].
  - pose proof (errorMessage_timeout _ Hto) as Hmsg.
    split; [now rewrite Hmsg|].
    split; [rewrite Hmsg; split; [discriminate|now intros [Hno _]]|].
    split; [rewrite Hmsg; split; [discriminate|now intros [Hno _]]|].
    split; [rewrite Hmsg; split; [discriminate|now intros [Hno _]]|exact Hstatus].
  - pose proof (errorMessage_otherwise _ Hto) as Hmsg.
    destruct (ApiService.response error) as [r0|].
    + split; [rewrite Hmsg; split; [discriminate|easy]|].
      split; [rewrite Hmsg; split; [split; [exact Hto|discriminate]|reflexivity]|].
      split; [rewrite Hmsg; split; [discriminate|now intros (_ & [=] & _)]|].
      split; [rewrite Hmsg; split; [discriminate|now intros (_ & [=] & _)]
             |exact Hstatus].
    + destruct (ApiService.request error).
      * split; [rewrite Hmsg; split; [discriminate|easy]|].
        split; [rewrite Hmsg; split; [discriminate|now intros [_ Hsome]]|].
        split; [now rewrite Hmsg|].
        split; [rewrite Hmsg; split; [discriminate|now intros (_ & _ & [=])]
               |exact Hstatus].
      * split; [rewrite Hmsg; split; [discriminate|easy]|].
        split; [rewrite Hmsg; split; [discriminate|now intros [_ Hsome]]|].
        split; [rewrite Hmsg; split; [discriminate|now intros (_ & _ & [=])]|].
        split; [now rewrite Hmsg|exact Hstatus].
Qed.

Lemma message_identifies_cause_sample :
  timed_out timeoutError
  /\ ApiService.status (ApiService.mkResponse 404) = 404%Z.
Proof.
  split.
  - apply (proj1 (proj1 (message_identifies_cause timeoutError))). reflexivity.
  - destruct (message_identifies_cause serverError) as (_ & _ & _ & _ & Hstatus).
    apply (Hstatus serverError
             (ApiService.mkResponse 404) (ApiService.mkResponse 404));
      try reflexivity; discriminate.
Defined.


(** * Further properties of the students page *)

(** X8: after a successful fetch the page shows the list block with one card
    per user of the response, in the order of the response and with the
    ids of the users, and the subtitle counts the users; while the fetch is
    pending and after a failed one the subtitle reads "0 students found". *)
Theorem page_after_fetch (data : list RawUser.t) :
  StudentsPage.render (StudentsPage.settled (ApiService.Resolved data))
  = StudentsPage.ListBlock (ApiService.transform data)
  /\ List.length (ApiService.transform data) = List.length data
  /\ map Student.id (ApiService.transform data) = map RawUser.id data
  /\ StudentsPage.subtitle (StudentsPage.settled (ApiService.Resolved data))
     = JS.Number_toString (Z.of_nat (List.length data)) ++ " students found"
  /\ StudentsPage.subtitle StudentsPage.mounted = "0 students found"
  /\ (forall error,
        StudentsPage.subtitle (StudentsPage.settled (ApiService.Rejected error))
        = "0 students found").
Proof.
  split; [reflexivity|].
  split; [apply map_from_length|].
  split; [now apply map_from_map|].
  split; [|split; [reflexivity|intro error; reflexivity]].
  unfold StudentsPage.subtitle; simpl.
  unfold ApiService.transform, JS.map_indexed. now rewrite map_from_length.
Qed.

(** X9: the hook leaves the loading state however the awaited call ends, with
    a value or with an exception, and from whatever state it resumed.  An
    exception shows the fixed message "An unexpected error occurred".  A
    returned failure keeps the students the page held.  A failure whose
    message is empty shows no error at all: the page renders its list, as
    after a success. *)
Theorem hook_always_settles
    (awaited : StudentsPage.Awaited) (st : StudentsPage.State) :
  StudentsPage.loading (StudentsPage.onMounted_resume awaited st) = false
  /\ StudentsPage.render (StudentsPage.onMounted_resume awaited st)
     <> StudentsPage.LoadingBlock
  /\ StudentsPage.render (StudentsPage.onMounted_resume StudentsPage.Threw st)
     = StudentsPage.ErrorBlock "An unexpected error occurred"
  /\ (forall message,
        StudentsPage.students
          (StudentsPage.onMounted_resume
             (StudentsPage.Returned (ApiService.ErrorObject message)) st)
        = StudentsPage.students st
        /\ StudentsPage.render
             (StudentsPage.onMounted_resume
                (StudentsPage.Returned (ApiService.ErrorObject message)) st)
           = if String.eqb message ""
             then StudentsPage.ListBlock (StudentsPage.students st)
             else StudentsPage.ErrorBlock message).
Proof.
  split; [reflexivity|].
  split.
  { unfold StudentsPage.render.
    change (StudentsPage.loading (StudentsPage.onMounted_resume awaited st))
      with false.
    cbv iota.
    now destruct (ApiService.truthy
                    (StudentsPage.error (StudentsPage.onMounted_resume awaited st))). }
  split; [reflexivity|].
  intro message. split; [reflexivity|].
  now destruct message.
Qed.

(** * The home page *)

Lemma after_clicks_cases (n : nat) (st : HomePage.State) :
  HomePage.after_clicks n st
  = match n with O => st | S _ => HomePage.handleClick st end.
Proof.
  unfold HomePage.after_clicks.
  induction n as [|n IH]; [reflexivity|].
  simpl. rewrite IH. now destruct n.
Qed.

(** X10: The paragraph "Button was clicked!" is absent before the first click
    and present after any number of clicks from the first on: a click never
    hides it again, and no click changes the heading or the button. *)
Theorem home_page_clicks (n : nat) :
  HomePage.render (HomePage.after_clicks n HomePage.setup)
  = {| HomePage.heading := "Welcome to the Student Info App!";
       HomePage.button := "Click Me!";
       HomePage.clicked_message :=
         match n with O => None | S _ => Some "Button was clicked!" end |}
  /\ (forall st,
        HomePage.handleClick (HomePage.handleClick st) = HomePage.handleClick st)
  /\ (forall m st,
        HomePage.buttonClicked st = true ->
        HomePage.after_clicks m st = st).
Proof.
  split; [rewrite after_clicks_cases; now destruct n|].
  split; [reflexivity|].
  intros m [message clicked] Hclicked. simpl in Hclicked. subst clicked.
  rewrite after_clicks_cases. now destruct m.
Qed.

Lemma home_page_clicks_sample :
  HomePage.after_clicks 3 (HomePage.handleClick HomePage.setup)
  = HomePage.handleClick HomePage.setup.
Proof.
  exact (proj2 (proj2 (home_page_clicks 0)) 3
               (HomePage.handleClick HomePage.setup) eq_refl).
Defined.

(** * The expandable student card *)

Lemma after_toggles_succ (props : StudentCard.Props) (n : nat) :
  StudentCard.after_toggles props (S n)
  = StudentCard.handleToggleExpand props (StudentCard.after_toggles props n).
Proof. reflexivity. Qed.

Lemma after_toggles_state (props : StudentCard.Props) (n : nat) :
  StudentCard.expanded (StudentCard.after_toggles props n) = Nat.odd n
  /\ StudentCard.calls (StudentCard.after_toggles props n)
     = if StudentCard.onExpand props
       then repeat (StudentCard.id (StudentCard.student props)) n
       else [].
Proof.
  induction n as [|n [IHexp IHcalls]]; [now destruct (StudentCard.onExpand props)|].
  rewrite after_toggles_succ.
  unfold StudentCard.handleToggleExpand; simpl StudentCard.expanded;
    simpl StudentCard.calls.
  rewrite IHexp, IHcalls. split.
  - rewrite Nat.odd_succ. now rewrite <- Nat.negb_odd.
  - destruct (StudentCard.onExpand props); [|reflexivity].
    now rewrite <- repeat_cons.
Qed.

(** X11: after [n] clicks on its button the card is expanded exactly when [n]
    is odd, and [onExpand], when given, has been called [n] times, each
    time with the id of the student: it is called when the card collapses
    as well as when it expands.  Without [onExpand] no call is made.  Two
    clicks in a row bring the card back to where it was and add two calls. *)
Theorem card_toggles (props : StudentCard.Props) (n : nat) :
  StudentCard.expanded (StudentCard.after_toggles props n) = Nat.odd n
  /\ StudentCard.calls (StudentCard.after_toggles props n)
     = (if StudentCard.onExpand props
        then repeat (StudentCard.id (StudentCard.student props)) n
        else [])
  /\ StudentCard.expanded (StudentCard.after_toggles props (S (S n)))
     = StudentCard.expanded (StudentCard.after_toggles props n)
  /\ List.length (StudentCard.calls (StudentCard.after_toggles props (S (S n))))
     = if StudentCard.onExpand props
       then 2 + List.length (StudentCard.calls (StudentCard.after_toggles props n))
       else 0.
Proof.
  destruct (after_toggles_state props n) as [Hexp Hcalls].
  destruct (after_toggles_state props (S (S n))) as [Hexp2 Hcalls2].
  split; [exact Hexp|]. split; [exact Hcalls|].
  split; [now rewrite Hexp, Hexp2|].
  rewrite Hcalls, Hcalls2.
  destruct (StudentCard.onExpand props); [|reflexivity].
  now rewrite !repeat_length.
Qed.

(** X12: what the card shows depends on the parity of the clicks alone.  The
    header always shows name, course and "Year" with the year.  After an
    even number of clicks the card is as mounted: collapsed, no details.
    After an odd number it shows the details: the id, the year "of 4", the
    course, and the email row exactly when the student has an email that
    is not empty. *)
Theorem card_view (props : StudentCard.Props) (n : nat) :
  let student := StudentCard.student props in
  let view := StudentCard.render props (StudentCard.after_toggles props n) in
  StudentCard.name_text view = StudentCard.name student
  /\ StudentCard.course_text view = StudentCard.course student
  /\ StudentCard.year_text view
     = "Year " ++ JS.Number_toString (StudentCard.year student)
  /\ StudentCard.aria_expanded view = Nat.odd n
  /\ (Nat.even n = true ->
      view = StudentCard.render props StudentCard.mounted
      /\ StudentCard.details view = None
      /\ StudentCard.button_text view = StudentCard.Plus
      /\ StudentCard.aria_label view
         = "Expand details for " ++ StudentCard.name student)
  /\ (Nat.odd n = true ->
      StudentCard.button_text view = StudentCard.Minus
      /\ StudentCard.aria_label view
         = "Collapse details for " ++ StudentCard.name student
      /\ exists details,
           StudentCard.details view = Some details
           /\ StudentCard.id_text details
              = JS.Number_toString (StudentCard.id student)
           /\ StudentCard.academic_info details
              = JS.Number_toString (StudentCard.year student) ++ " of 4"
           /\ StudentCard.course_full details = StudentCard.course student
           /\ (forall text,
                 StudentCard.email_row details = Some text
                 <-> StudentCard.email student = Some text /\ text <> "")).
Proof.
  intros student view.
  pose proof (proj1 (after_toggles_state props n)) as Hexp.
  unfold view, StudentCard.render. cbv zeta. rewrite Hexp.
  split; [reflexivity|]. split; [reflexivity|]. split; [reflexivity|].
  split; [reflexivity|]. split.
  - rewrite <- Nat.negb_odd. intros Hodd%negb_true_iff. rewrite Hodd.
    now repeat split.
  - intros ->. split; [reflexivity|]. split; [reflexivity|].
    eexists. split; [reflexivity|]. simpl.
    split; [reflexivity|]. split; [reflexivity|]. split; [reflexivity|].
    intro text. fold student.
    destruct (StudentCard.email student) as [[|c rest]|]; simpl; split;
      try discriminate; try (now intros [[=] _]).
    + intros [[= <-] Hne]. now destruct Hne.
    + intros [= <-]. split; [reflexivity|discriminate].
    + now intros [[= <-] _].
Qed.

Lemma card_view_sample :
  StudentCard.details
    (StudentCard.render
       (StudentCard.mkProps (StudentCard.mkStudent 1 "John Doe" "Computer Science" 3 None) true)
       (StudentCard.after_toggles
          (StudentCard.mkProps (StudentCard.mkStudent 1 "John Doe" "Computer Science" 3 None) true)
          2))
  = None.
Proof.
  exact (proj1 (proj2
           (proj1 (proj2 (proj2 (proj2 (proj2
              (card_view
                 (StudentCard.mkProps
                    (StudentCard.mkStudent 1 "John Doe" "Computer Science" 3 None) true)
                 2)))))
              eq_refl))).
Defined.

(** * The encoder and decoder of the test setup *)

Lemma ToUint8_small (n : N) : (n < 256)%N -> Polyfill.ToUint8 n = n.
Proof. apply N.mod_small. Qed.

Lemma ToUint16_small (n : N) : (n < 65536)%N -> Polyfill.ToUint16 n = n.
Proof. apply N.mod_small. Qed.

Lemma ToUint8_byte (n : N) : (Polyfill.ToUint8 n < 256)%N.
Proof. apply N.mod_lt. discriminate. Qed.

Lemma decode_short (limit : nat) (input : list N) :
  List.length input <= limit ->
  Polyfill.decode limit input = Polyfill.Normal (map Polyfill.ToUint16 input).
Proof.
  intro Hshort. unfold Polyfill.decode, Polyfill.spread_call.
  now rewrite (proj2 (Nat.leb_le _ _) Hshort).
Qed.

Lemma decode_long (limit : nat) (input : list N) :
  limit < List.length input ->
  Polyfill.decode limit input = Polyfill.RangeError.
Proof.
  intro Hlong. unfold Polyfill.decode, Polyfill.spread_call.
  now rewrite (proj2 (Nat.leb_gt _ _) Hlong).
Qed.

Lemma map_ToUint16_bytes (bytes : list N) :
  Polyfill.is_bytes bytes -> map Polyfill.ToUint16 bytes = bytes.
Proof.
  induction 1 as [|b bytes Hb _ IH]; simpl; [reflexivity|].
  rewrite IH, ToUint16_small; [reflexivity|lia].
Qed.

Lemma encode_bytes (bytes : list N) :
  Polyfill.is_bytes bytes -> Polyfill.encode (Some bytes) = bytes.
Proof.
  unfold Polyfill.encode.
  induction 1 as [|b bytes Hb _ IH]; simpl; [reflexivity|].
  rewrite IH, ToUint8_small; [reflexivity|exact Hb].
Qed.

(** X13: for a byte array with no more bytes than the engine accepts as
    the arguments of one call, the decoder returns a string of the same
    length whose code units are the bytes, and encoding that string gives
    the array back; for a longer array the decoder raises a [RangeError].
    The encoder called without an argument gives the empty array. *)
Theorem decode_then_encode (argument_limit : nat) (bytes : list N) :
  Polyfill.is_bytes bytes ->
  (List.length bytes <= argument_limit ->
   exists s,
     Polyfill.decode argument_limit bytes = Polyfill.Normal s
     /\ s = bytes
     /\ Polyfill.is_string s
     /\ List.length s = List.length bytes
     /\ Polyfill.encode (Some s) = bytes)
  /\ (argument_limit < List.length bytes ->
      Polyfill.decode argument_limit bytes = Polyfill.RangeError)
  /\ Polyfill.encode None = [].
Proof.
  intro Hbytes.
  split; [|split; [apply decode_long|reflexivity]].
  intro Hshort. exists bytes.
  split; [now rewrite (decode_short _ _ Hshort), map_ToUint16_bytes|].
  split; [reflexivity|].
  split; [|split; [reflexivity|now apply encode_bytes]].
  unfold Polyfill.is_string. unfold Polyfill.is_bytes in Hbytes.
  eapply Forall_impl; [|exact Hbytes]. simpl. intros; lia.
Qed.

Lemma decode_then_encode_sample :
  (exists s,
      Polyfill.decode 3 [72; 105; 255]%N = Polyfill.Normal s
      /\ s = [72; 105; 255]%N
      /\ Polyfill.is_string s
      /\ List.length s = 3
      /\ Polyfill.encode (Some s) = [72; 105; 255]%N)
  /\ Polyfill.decode 2 [72; 105; 255]%N = Polyfill.RangeError.
Proof.
  assert (Hbytes : Polyfill.is_bytes [72; 105; 255]%N) by (repeat constructor).
  split.
  - apply (proj1 (decode_then_encode 3 [72; 105; 255]%N Hbytes)).
    repeat constructor.
  - apply (proj1 (proj2 (decode_then_encode 2 [72; 105; 255]%N Hbytes))).
    repeat constructor.
Defined.

(** X14: the encoder keeps only the low byte of each code unit, at the same
    length.  For a string with no more units than the engine accepts as
    the arguments of one call, encoding it and decoding the bytes gives
    each unit modulo 256, so the string comes back exactly when every unit
    of it is below 256; for a longer string the decoder raises a
    [RangeError] on the bytes the encoder gave. *)
Theorem encode_then_decode (argument_limit : nat) (s : list N) :
  Polyfill.is_bytes (Polyfill.encode (Some s))
  /\ List.length (Polyfill.encode (Some s)) = List.length s
  /\ Polyfill.encode (Some s) = map (fun u => (u mod 256)%N) s
  /\ (List.length s <= argument_limit ->
      Polyfill.decode argument_limit (Polyfill.encode (Some s))
      = Polyfill.Normal (map (fun u => (u mod 256)%N) s)
      /\ (Polyfill.decode argument_limit (Polyfill.encode (Some s))
          = Polyfill.Normal s
          <-> Polyfill.is_bytes s))
  /\ (argument_limit < List.length s ->
      Polyfill.decode argument_limit (Polyfill.encode (Some s))
      = Polyfill.RangeError).
Proof.
  assert (Hbytes : Polyfill.is_bytes (Polyfill.encode (Some s))).
  { unfold Polyfill.is_bytes, Polyfill.encode.
    apply Forall_map, Forall_forall. intros u _. apply ToUint8_byte. }
  assert (Hlen : List.length (Polyfill.encode (Some s)) = List.length s)
    by apply length_map.
  split; [exact Hbytes|]. split; [exact Hlen|]. split; [reflexivity|].
  split.
  - intro Hshort.
    assert (Hdec : Polyfill.decode argument_limit (Polyfill.encode (Some s))
                   = Polyfill.Normal (map (fun u => (u mod 256)%N) s)).
    { rewrite decode_short by now rewrite Hlen.
      now rewrite (map_ToUint16_bytes _ Hbytes). }
    split; [exact Hdec|].
    rewrite Hdec. unfold Polyfill.is_bytes. clear. split.
    + intros [= Hsame]. induction s as [|u s IH]; [constructor|].
      simpl in Hsame. injection Hsame as Hu Hs.
      constructor; [|now apply IH].
      rewrite <- Hu. apply N.mod_lt. discriminate.
    + intro Hall. f_equal.
      induction Hall as [|u s Hu _ IH]; simpl; [reflexivity|].
      rewrite IH, N.mod_small; [reflexivity|exact Hu].
  - intro Hlong. apply decode_long. now rewrite Hlen.
Qed.

Lemma encode_then_decode_sample :
  Polyfill.decode 3 (Polyfill.encode (Some [72; 233; 8364]%N))
  = Polyfill.Normal [72; 233; 172]%N
  /\ Polyfill.decode 2 (Polyfill.encode (Some [72; 233; 8364]%N))
     = Polyfill.RangeError.
Proof.
  destruct (encode_then_decode 3 [72; 233; 8364]%N) as (_ & _ & _ & Hshort & _).
  destruct (encode_then_decode 2 [72; 233; 8364]%N) as (_ & _ & _ & _ & Hlong).
  split.
  - exact (proj1 (Hshort ltac:(repeat constructor))).
  - exact (Hlong ltac:(repeat constructor)).
Defined.
